(** * Photo booth front end: the capture session controller of [src/App.tsx]

    The development embeds the [App] function component: its seven
    [useState] cells, the per-render variable [pollInterval], the interval
    table of the JavaScript runtime and the requests that are in flight.
    Every [async] function is split at its [await]: a [_begin] part that
    runs up to the request and a [_resume] part that runs when the
    response (or the transport error) arrives. *)

From Stdlib Require Import ZArith String.
From stdpp Require Import base option list gmap strings.

Local Open Scope string_scope.
Local Open Scope list_scope.
Local Open Scope nat_scope.

(** ** Data model (the two interfaces of the source) *)

Module CapturedImage.

Record t : Type := mk { id : string; url : string; timestamp : string }.

#[global] Instance eq_dec : EqDecision t.
Proof. solve_decision. Defined.

End CapturedImage.

Module CaptureStatus.

Record t : Type := mk {
  active : bool;
  countdown : option Z;
  status : string;
  frame : option string
}.

End CaptureStatus.

(** The [useState] cells of [App], lines 18-24, with their initial values. *)
Record AppState : Type := mkAppState {
  isCapturing : bool;
  countdown : option Z;
  capturedImages : list CapturedImage.t;
  status : string;
  error : option string;
  currentFrame : option string;
  selectedImage : option CapturedImage.t
}.

Definition initialState : AppState :=
  {| isCapturing := false; countdown := None; capturedImages := [];
     status := ""; error := None; currentFrame := None;
     selectedImage := None |}.

Definition put_isCapturing (v : bool) (s : AppState) : AppState :=
  {| isCapturing := v; countdown := countdown s;
     capturedImages := capturedImages s; status := status s;
     error := error s; currentFrame := currentFrame s;
     selectedImage := selectedImage s |}.

Definition put_countdown (v : option Z) (s : AppState) : AppState :=
  {| isCapturing := isCapturing s; countdown := v;
     capturedImages := capturedImages s; status := status s;
     error := error s; currentFrame := currentFrame s;
     selectedImage := selectedImage s |}.

Definition put_capturedImages (v : list CapturedImage.t) (s : AppState)
  : AppState :=
  {| isCapturing := isCapturing s; countdown := countdown s;
     capturedImages := v; status := status s;
     error := error s; currentFrame := currentFrame s;
     selectedImage := selectedImage s |}.

Definition put_status (v : string) (s : AppState) : AppState :=
  {| isCapturing := isCapturing s; countdown := countdown s;
     capturedImages := capturedImages s; status := v;
     error := error s; currentFrame := currentFrame s;
     selectedImage := selectedImage s |}.

Definition put_error (v : option string) (s : AppState) : AppState :=
  {| isCapturing := isCapturing s; countdown := countdown s;
     capturedImages := capturedImages s; status := status s;
     error := v; currentFrame := currentFrame s;
     selectedImage := selectedImage s |}.

Definition put_currentFrame (v : option string) (s : AppState) : AppState :=
  {| isCapturing := isCapturing s; countdown := countdown s;
     capturedImages := capturedImages s; status := status s;
     error := error s; currentFrame := v;
     selectedImage := selectedImage s |}.

Definition put_selectedImage (v : option CapturedImage.t) (s : AppState)
  : AppState :=
  {| isCapturing := isCapturing s; countdown := countdown s;
     capturedImages := capturedImages s; status := status s;
     error := error s; currentFrame := currentFrame s;
     selectedImage := v |}.

(** ** The environment the component runs in *)

(** The four requests of the source, by URL and method. *)
Inductive Request : Type :=
| GetImages      (* GET  /images          line 33 *)
| PostStart      (* POST /start-capture   line 51 *)
| PostStop       (* POST /stop-capture    line 71 *)
| GetStatus.     (* GET  /capture-status  line 93 *)

#[global] Instance Request_eq_dec : EqDecision Request.
Proof. solve_decision. Defined.

(** What an awaited [fetch] settles to: the promise rejects (transport
    error), or it resolves to a response with its [ok] flag; [body] is the
    value [response.json()] resolves to, [None] when parsing rejects. *)
Inductive Response (A : Type) : Type :=
| NetworkError
| Http (ok : bool) (body : option A).
Arguments NetworkError {A}.
Arguments Http {A} ok body.

(** A failed request in the sense of the specification: a transport error
    or a response outside 2xx. *)
Definition failed {A : Type} (resp : Response A) : bool :=
  match resp with
  | NetworkError => true
  | Http ok _ => negb ok
  end.

(** A suspended [async] function, waiting at its [await].  [scope] is the
    render whose closure the function is: the call of [App] that created
    it, and so the [pollInterval] variable it sees. *)
Inductive Task : Type :=
| StartTask (scope : nat)     (* startCapture, at line 51 *)
| StopTask (scope : nat)      (* stopCapture, at line 71 *)
| PollTask (scope : nat)      (* the interval callback, at line 93 *)
| ImagesTask.                 (* fetchImages, at line 33 *)

(** [ui] holds the [useState] cells and [dirty] records that a setter
    changed one of them since the last render.  [render] numbers the
    committed call of [App]: the handlers attached to the buttons are the
    closures of that call.  [let pollInterval] (line 88) is a local of
    [App], so every render has a variable of its own: [pollInterval] maps a
    render to the handle stored in its variable, and a render that is
    absent still has [undefined] there.  [timers] is the interval table of
    the runtime: handle to the render whose callback it fires. *)
Record World : Type := mkWorld {
  ui : AppState;
  dirty : bool;
  render : nat;
  pollInterval : gmap nat nat;
  timers : gmap nat nat;
  nextTimer : nat;
  pending : gmap nat Task;
  nextTask : nat;
  requests : list Request;
  console : list string
}.

Definition with_ui (f : AppState → AppState) (d : bool) (w : World) : World :=
  {| ui := f (ui w); dirty := d; render := render w;
     pollInterval := pollInterval w; timers := timers w;
     nextTimer := nextTimer w; pending := pending w;
     nextTask := nextTask w; requests := requests w;
     console := console w |}.

Definition with_render (n : nat) (w : World) : World :=
  {| ui := ui w; dirty := false; render := n;
     pollInterval := pollInterval w; timers := timers w;
     nextTimer := nextTimer w; pending := pending w;
     nextTask := nextTask w; requests := requests w;
     console := console w |}.

Definition with_pollInterval (m : gmap nat nat) (w : World) : World :=
  {| ui := ui w; dirty := dirty w; render := render w;
     pollInterval := m; timers := timers w;
     nextTimer := nextTimer w; pending := pending w;
     nextTask := nextTask w; requests := requests w;
     console := console w |}.

Definition with_timers (m : gmap nat nat) (n : nat) (w : World) : World :=
  {| ui := ui w; dirty := dirty w; render := render w;
     pollInterval := pollInterval w; timers := m;
     nextTimer := n; pending := pending w;
     nextTask := nextTask w; requests := requests w;
     console := console w |}.

Definition with_pending (m : gmap nat Task) (n : nat) (w : World) : World :=
  {| ui := ui w; dirty := dirty w; render := render w;
     pollInterval := pollInterval w; timers := timers w;
     nextTimer := nextTimer w; pending := m;
     nextTask := n; requests := requests w;
     console := console w |}.

Definition with_requests (l : list Request) (w : World) : World :=
  {| ui := ui w; dirty := dirty w; render := render w;
     pollInterval := pollInterval w; timers := timers w;
     nextTimer := nextTimer w; pending := pending w;
     nextTask := nextTask w; requests := l;
     console := console w |}.

Definition with_console (l : list string) (w : World) : World :=
  {| ui := ui w; dirty := dirty w; render := render w;
     pollInterval := pollInterval w; timers := timers w;
     nextTimer := nextTimer w; pending := pending w;
     nextTask := nextTask w; requests := requests w;
     console := l |}.

(** ** Computations: state and exceptions *)

(** A run of JavaScript code either completes normally or throws. *)
Inductive Completion (A : Type) : Type :=
| Normal (a : A)
| Thrown (e : string).
Arguments Normal {A} a.
Arguments Thrown {A} e.

Definition M (A : Type) : Type := World → World * Completion A.

Definition ret {A : Type} (a : A) : M A := λ w, (w, Normal a).

Definition throw {A : Type} (e : string) : M A := λ w, (w, Thrown e).

Definition bind {A B : Type} (m : M A) (k : A → M B) : M B :=
  λ w, match m w with
       | (w', Normal a) => k a w'
       | (w', Thrown e) => (w', Thrown e)
       end.

(** [try { body } catch (error) { handler }]: the effects of [body] up to
    the throw are kept. *)
Definition try_catch {A : Type} (body : M A) (handler : string → M A) : M A :=
  λ w, match body w with
       | (w', Normal a) => (w', Normal a)
       | (w', Thrown e) => handler e w'
       end.

Declare Scope js_scope.
Delimit Scope js_scope with js.
Notation "'let*' x ':=' m 'in' k" := (bind m (λ x, k))
  (at level 10, x name, m at level 100, k at level 200) : js_scope.
Notation "m ';;' k" := (bind m (λ _, k))
  (at level 100, k at level 200, right associativity) : js_scope.
Local Open Scope js_scope.

(** The state reached by a computation, and how it completed. *)
Definition exec {A : Type} (m : M A) (w : World) : World := (m w).1.
Definition completion {A : Type} (m : M A) (w : World) : Completion A :=
  (m w).2.

(** *** [useState] setters

    A setter called with the value the cell already holds (by [Object.is])
    schedules no render; equality of the embedded values stands for
    [Object.is].  The array that [response.json()] builds is a fresh
    object, so [setCapturedImages] always schedules one. *)
Definition setter {A : Type} `{EqDecision A}
    (get : AppState → A) (put : A → AppState → AppState) (v : A) : M unit :=
  λ w, if bool_decide (get (ui w) = v)
       then (w, Normal tt)
       else (with_ui (put v) true w, Normal tt).

Definition setIsCapturing : bool → M unit := setter isCapturing put_isCapturing.
Definition setCountdown : option Z → M unit := setter countdown put_countdown.
Definition setStatus : string → M unit := setter status put_status.
Definition setError : option string → M unit := setter error put_error.
Definition setCurrentFrame : option string → M unit :=
  setter currentFrame put_currentFrame.
Definition setSelectedImage : option CapturedImage.t → M unit :=
  setter selectedImage put_selectedImage.
Definition setCapturedImages (v : list CapturedImage.t) : M unit :=
  λ w, (with_ui (put_capturedImages v) true w, Normal tt).

(** *** Runtime services *)

Definition console_error (label e : string) : M unit :=
  λ w, (with_console (console w ++ [label +:+ " " +:+ e]) w, Normal tt).

(** [fetch(...)] followed by [await]: the request goes out and the caller
    is suspended as [task] under a fresh key. *)
Definition fetch (req : Request) (task : Task) : M unit :=
  λ w, (with_pending (<[nextTask w := task]> (pending w)) (S (nextTask w))
          (with_requests (requests w ++ [req]) w), Normal tt).

(** The value of the [await] when the caller is resumed. *)
Definition await {A : Type} (resp : Response A) : M (bool * option A) :=
  match resp with
  | NetworkError => throw "TypeError: Failed to fetch"
  | Http ok body => ret (ok, body)
  end.

(** [await response.json()]. *)
Definition json {A : Type} (body : option A) : M A :=
  match body with
  | Some a => ret a
  | None => throw "SyntaxError: Unexpected token"
  end.

(** [setInterval(callback, 100)], for the callback closure of render
    [scope]: a fresh handle, entered in the interval table. *)
Definition setInterval (scope : nat) : M nat :=
  λ w, (with_timers (<[nextTimer w := scope]> (timers w)) (S (nextTimer w)) w,
        Normal (nextTimer w)).

(** [clearInterval(h)]: a no-op for [undefined] and for a handle that is
    not (or no longer) in the table. *)
Definition clearInterval (h : option nat) : M unit :=
  λ w, match h with
       | Some t => (with_timers (delete t (timers w)) (nextTimer w) w, Normal tt)
       | None => (w, Normal tt)
       end.

(** Reading and assigning the variable [pollInterval] of render [scope]. *)
Definition get_pollInterval (scope : nat) : M (option nat) :=
  λ w, (w, Normal (pollInterval w !! scope)).

Definition set_pollInterval (scope t : nat) : M unit :=
  λ w, (with_pollInterval (<[scope := t]> (pollInterval w)) w, Normal tt).

(** Calling an [async] function without [await]: its synchronous part
    runs, and however it completes the caller only gets a promise. *)
Definition call_async (m : M unit) : M unit :=
  λ w, ((m w).1, Normal tt).

(** ** The functions of [App] *)

(** [fetchImages], lines 30-43. *)
Definition fetchImages_begin : M unit :=
  setError None ;;
  fetch GetImages ImagesTask.

Definition fetchImages_resume (resp : Response (list CapturedImage.t))
  : M unit :=
  try_catch
    (let* response := await resp in
     (if negb response.1 then throw "Server error" else ret tt) ;;
     let* data := json response.2 in
     setCapturedImages data)
    (λ error,
     setError (Some "Unable to connect to the photo booth server. Please make sure the backend server is running.") ;;
     console_error "Failed to fetch images:" error).

(** [pollCaptureStatus], lines 90-111: the part that installs the timer. *)
Definition pollCaptureStatus (scope : nat) : M unit :=
  let* t := setInterval scope in
  set_pollInterval scope t.

(** The callback given to [setInterval], lines 91-110. *)
Definition intervalCallback_begin (scope : nat) : M unit :=
  fetch GetStatus (PollTask scope).

Definition intervalCallback_resume (scope : nat)
    (resp : Response CaptureStatus.t) : M unit :=
  try_catch
    (let* response := await resp in
     (if negb response.1 then throw "Server error" else ret tt) ;;
     let* data := json response.2 in
     setCountdown (CaptureStatus.countdown data) ;;
     setStatus (CaptureStatus.status data) ;;
     setCurrentFrame (CaptureStatus.frame data) ;;
     if String.eqb (CaptureStatus.status data) "captured"
     then call_async fetchImages_begin
     else ret tt)
    (λ error,
     console_error "Error polling status:" error ;;
     setError (Some "Lost connection to the photo booth server.") ;;
     let* h := get_pollInterval scope in
     clearInterval h ;;
     setIsCapturing false).

(** [startCapture], lines 45-64. *)
Definition startCapture_begin (scope : nat) : M unit :=
  setError None ;;
  setIsCapturing true ;;
  setStatus "Starting capture session..." ;;
  fetch PostStart (StartTask scope).

Definition startCapture_resume (scope : nat) (resp : Response unit) : M unit :=
  try_catch
    (let* response := await resp in
     (if negb response.1 then throw "Failed to start capture" else ret tt) ;;
     pollCaptureStatus scope)
    (λ error,
     console_error "Error starting capture:" error ;;
     setStatus "Failed to start capture" ;;
     setError (Some "Unable to start capture. Please make sure the backend server is running.") ;;
     setIsCapturing false).

(** [stopCapture], lines 66-86. *)
Definition stopCapture_begin (scope : nat) : M unit :=
  setError None ;;
  setStatus "Stopping capture session..." ;;
  fetch PostStop (StopTask scope).

Definition stopCapture_resume (scope : nat) (resp : Response unit) : M unit :=
  try_catch
    (let* response := await resp in
     (if negb response.1 then throw "Failed to stop capture" else ret tt) ;;
     setIsCapturing false ;;
     setStatus "Capture session stopped" ;;
     let* h := get_pollInterval scope in
     clearInterval h)
    (λ error,
     console_error "Error stopping capture:" error ;;
     setStatus "Failed to stop capture" ;;
     setError (Some "Unable to stop capture. Please make sure the backend server is running.") ;;
     setIsCapturing false).

(** [openModal] and [closeModal], lines 113-119. *)
Definition openModal (image : CapturedImage.t) : M unit :=
  setSelectedImage (Some image).

Definition closeModal : M unit :=
  setSelectedImage None.

(** ** The event loop

    One event is one run to completion: a click on a rendered control, an
    interval firing, or the settling of a request in flight.  When the run
    ends React renders again if a setter changed the state, and the
    controls then carry the closures of the new render. *)

Definition commit (w : World) : World :=
  if dirty w then with_render (S (render w)) w else w.

Definition handle (m : M unit) (w : World) : World := commit (exec m w).

(** The awaited promise of task [k] has settled: the task leaves the set
    of suspended ones. *)
Definition settle (k : nat) (w : World) : World :=
  with_pending (delete k (pending w)) (nextTask w) w.

Inductive Event : Type :=
| ClickStart                  (* the button of line 170 *)
| ClickStop                   (* the button of line 161 *)
| ClickImage (i : nat)        (* the i-th gallery tile, line 186 *)
| ClickModal                  (* the overlay of line 203 *)
| Tick (t : nat)              (* interval [t] fires *)
| StartResponse (k : nat) (resp : Response unit)
| StopResponse (k : nat) (resp : Response unit)
| StatusResponse (k : nat) (resp : Response CaptureStatus.t)
| ImagesResponse (k : nat) (resp : Response (list CapturedImage.t)).

(** [None] when the event cannot happen in [w]: the control is not
    rendered (lines 142, 182, 200), the interval is not in the table, or
    no such task is waiting. *)
Definition step (e : Event) (w : World) : option World :=
  match e with
  | ClickStart =>
      if isCapturing (ui w) then None
      else Some (handle (startCapture_begin (render w)) w)
  | ClickStop =>
      if isCapturing (ui w)
      then Some (handle (stopCapture_begin (render w)) w)
      else None
  | ClickImage i =>
      match capturedImages (ui w) !! i with
      | Some image => Some (handle (openModal image) w)
      | None => None
      end
  | ClickModal =>
      match selectedImage (ui w) with
      | Some _ => Some (handle closeModal w)
      | None => None
      end
  | Tick t =>
      match timers w !! t with
      | Some scope => Some (handle (intervalCallback_begin scope) w)
      | None => None
      end
  | StartResponse k resp =>
      match pending w !! k with
      | Some (StartTask scope) =>
          Some (handle (startCapture_resume scope resp) (settle k w))
      | _ => None
      end
  | StopResponse k resp =>
      match pending w !! k with
      | Some (StopTask scope) =>
          Some (handle (stopCapture_resume scope resp) (settle k w))
      | _ => None
      end
  | StatusResponse k resp =>
      match pending w !! k with
      | Some (PollTask scope) =>
          Some (handle (intervalCallback_resume scope resp) (settle k w))
      | _ => None
      end
  | ImagesResponse k resp =>
      match pending w !! k with
      | Some ImagesTask =>
          Some (handle (fetchImages_resume resp) (settle k w))
      | _ => None
      end
  end.

Fixpoint run (es : list Event) (w : World) : option World :=
  match es with
  | [] => Some w
  | e :: es' =>
      match step e w with
      | Some w' => run es' w'
      | None => None
      end
  end.

(** The first render, before its effect has run. *)
Definition blank : World :=
  {| ui := initialState; dirty := false; render := 0;
     pollInterval := ∅; timers := ∅; nextTimer := 0;
     pending := ∅; nextTask := 0; requests := []; console := [] |}.

(** The mounted component: the effect of lines 26-28 has called
    [fetchImages]. *)
Definition mounted : World := handle fetchImages_begin blank.

Definition reachable (w : World) : Prop :=
  ∃ es, run es mounted = Some w.

(** Number of polling loops that are running. *)
Definition activeLoops (w : World) : nat := size (timers w).

(** How often the gallery has been requested. *)
Definition galleryRequests (w : World) : nat :=
  length (filter (λ r, r = GetImages) (requests w)).

Definition statusRequests (w : World) : nat :=
  length (filter (λ r, r = GetStatus) (requests w)).

(** Snapshot sequences: the positions at which the status becomes
    ["captured"] coming from another status (or at the very start). *)
Fixpoint transitionsIntoCaptured (previous : bool) (l : list string) : nat :=
  match l with
  | [] => 0
  | s :: l' =>
      if String.eqb s "captured"
      then (if previous then 0 else 1) + transitionsIntoCaptured true l'
      else transitionsIntoCaptured false l'
  end.

(** A run of successful poll ticks of interval [t], one per snapshot:
    the interval fires, and its status request is answered with the
    snapshot before it fires again. *)
Fixpoint pollTicks (t : nat) (l : list CaptureStatus.t) (w : World)
  : option World :=
  match l with
  | [] => Some w
  | data :: l' =>
      match run [Tick t;
                 StatusResponse (nextTask w) (Http true (Some data))] w with
      | Some w' => pollTicks t l' w'
      | None => None
      end
  end.

(** ** Observations and concrete inputs *)

Definition capturedTicks (l : list CaptureStatus.t) : nat :=
  length (filter (λ d, CaptureStatus.status d = "captured") l).

(** Gallery requests caused by one successful tick. *)
Definition capturedTick (data : CaptureStatus.t) : nat :=
  if bool_decide (CaptureStatus.status data = "captured") then 1 else 0.

(** The reading "one gallery request per transition into captured", for
    the ticks of interval [t] from [w] on. *)
Definition syncsOncePerTransition (t : nat) (l : list CaptureStatus.t)
    (w : World) : Prop :=
  ∀ w', pollTicks t l w = Some w' →
        galleryRequests w'
        = galleryRequests w
          + transitionsIntoCaptured false (map CaptureStatus.status l).

(** The messages of the four [catch] blocks. *)
Definition msgImages : string :=
  "Unable to connect to the photo booth server. Please make sure the backend server is running.".
Definition msgStart : string :=
  "Unable to start capture. Please make sure the backend server is running.".
Definition msgStop : string :=
  "Unable to stop capture. Please make sure the backend server is running.".
Definition msgPoll : string := "Lost connection to the photo booth server.".

Definition photo1 : CapturedImage.t :=
  CapturedImage.mk "1" "/img/1.jpg" "12:00".
Definition photo2 : CapturedImage.t :=
  CapturedImage.mk "2" "/img/2.jpg" "12:05".

Definition ok200 : Response unit := Http true None.
Definition err500 : Response unit := Http false None.

Definition snapshot (s : string) (c : option Z) : CaptureStatus.t :=
  CaptureStatus.mk true c s (Some "/9j/4AAQ").

(** The session has been started and its loop (interval 0, created by
    the closure of render 0) is running.  Task 0 is the gallery fetch of
    the mount, task 1 the start request. *)
Definition startedTrace : list Event := [ClickStart; StartResponse 1 ok200].

(** ** The invariant of the event loop

    Between two events: no render is outstanding; a suspended
    [startCapture] belongs to a render that is over, whose variable is
    still unassigned, and no render has two of them; every running
    interval is the handle stored in the variable of the render that
    created it; a suspended [stopCapture] belongs to a render whose
    variable is unassigned and that has no [startCapture] under way. *)
Record Inv (w : World) : Prop := mkInv {
  inv_dirty : dirty w = false;
  inv_task_fresh : ∀ k task, pending w !! k = Some task → k < nextTask w;
  inv_start_scope : ∀ k r, pending w !! k = Some (StartTask r) →
      r < render w ∧ pollInterval w !! r = None;
  inv_start_unique : ∀ k1 k2 r, pending w !! k1 = Some (StartTask r) →
      pending w !! k2 = Some (StartTask r) → k1 = k2;
  inv_timer_handle : ∀ t r, timers w !! t = Some r →
      pollInterval w !! r = Some t;
  inv_handle_bound : ∀ r t, pollInterval w !! r = Some t →
      r < render w ∧ t < nextTimer w;
  inv_stop_scope : ∀ k r, pending w !! k = Some (StopTask r) →
      r ≤ render w ∧ (r = render w → isCapturing (ui w) = true) ∧
      pollInterval w !! r = None ∧
      ∀ k', pending w !! k' ≠ Some (StartTask r)
}.

(** A handle that was given out and is no longer in the interval table. *)
Definition retired (t : nat) (w : World) : Prop :=
  t < nextTimer w ∧ timers w !! t = None.

(** ** Proof tools *)

Ltac js_unfold :=
  unfold handle, commit, settle, exec, completion,
    startCapture_begin, startCapture_resume,
    stopCapture_begin, stopCapture_resume,
    intervalCallback_begin, intervalCallback_resume, pollCaptureStatus,
    fetchImages_begin, fetchImages_resume, openModal, closeModal,
    call_async, await, json, fetch, setInterval, clearInterval,
    get_pollInterval, set_pollInterval, console_error,
    setIsCapturing, setCountdown, setStatus, setError, setCurrentFrame,
    setSelectedImage, setCapturedImages, setter,
    try_catch, bind, ret, throw in *.

Ltac js_simpl :=
  cbn [ui dirty render pollInterval timers nextTimer pending nextTask
       requests console with_ui with_render with_pollInterval with_timers
       with_pending with_requests with_console
       isCapturing countdown capturedImages status error currentFrame
       selectedImage put_isCapturing put_countdown put_capturedImages
       put_status put_error put_currentFrame put_selectedImage
       fst snd negb] in *.

Ltac js_simpl_goal :=
  cbn [ui dirty render pollInterval timers nextTimer pending nextTask
       requests console with_ui with_render with_pollInterval with_timers
       with_pending with_requests with_console
       isCapturing countdown capturedImages status error currentFrame
       selectedImage put_isCapturing put_countdown put_capturedImages
       put_status put_error put_currentFrame put_selectedImage
       fst snd negb].

Ltac js_cases :=
  repeat (js_simpl_goal;
          first
            [ case_bool_decide
            | match goal with
              | |- context [if ?b then _ else _] => destruct b eqn:?
              | |- context [match ?o with Some _ => _ | None => _ end] =>
                  destruct o eqn:?
              end ]).

Ltac js_run := js_unfold; js_cases; js_simpl.

Ltac map_hyps :=
  repeat match goal with
  | H : <[_:=_]> _ !! _ = Some _ |- _ => apply lookup_insert_Some in H
  | H : delete _ _ !! _ = Some _ |- _ => apply lookup_delete_Some in H
  | H : _ ∧ _ |- _ => destruct H
  | H : _ ∨ _ |- _ => destruct H
  | H : Some _ = Some _ |- _ => injection H as H
  | H : StartTask _ = StartTask _ |- _ => injection H as H
  | H : StopTask _ = StopTask _ |- _ => injection H as H
  | H : StartTask _ = _ |- _ => discriminate H
  | H : StopTask _ = _ |- _ => discriminate H
  | H : PollTask _ = _ |- _ => discriminate H
  | H : ImagesTask = _ |- _ => discriminate H
  | H : ?a = ?a → _ |- _ => specialize (H eq_refl)
  end; subst.

Ltac inv_start w H :=
  destruct H as [Hd Hfresh Hstart Huniq Htimer Hbound Hstop];
  destruct w as [u d rn pi tm nt pd nk rq cs];
  cbn [ui dirty render pollInterval timers nextTimer pending nextTask
       requests console] in *;
  subst d.

Ltac saturate :=
  repeat match goal with
  | Hf : ∀ k task, ?pd !! k = Some task → k < _,
    H : ?pd !! _ = Some _ |- _ => learn_hyp (Hf _ _ H)
  | Hs : ∀ k r, ?pd !! k = Some (StartTask r) → _ ∧ _,
    H : ?pd !! _ = Some (StartTask _) |- _ => learn_hyp (Hs _ _ H)
  | Hu : ∀ k1 k2 r, ?pd !! k1 = Some (StartTask r) → _ → k1 = k2,
    H1 : ?pd !! _ = Some (StartTask ?r),
    H2 : ?pd !! _ = Some (StartTask ?r) |- _ => learn_hyp (Hu _ _ _ H1 H2)
  | Ht : ∀ t r, ?tm !! t = Some r → _ !! r = Some t,
    H : ?tm !! _ = Some _ |- _ => learn_hyp (Ht _ _ H)
  | Hb : ∀ r t, ?pi !! r = Some t → _ ∧ _,
    H : ?pi !! _ = Some _ |- _ => learn_hyp (Hb _ _ H)
  | Hst : ∀ k r, ?pd !! k = Some (StopTask r) → _,
    H : ?pd !! _ = Some (StopTask _) |- _ => learn_hyp (Hst _ _ H)
  | Hn : ∀ k', ?pd !! k' ≠ Some (StartTask ?r),
    H : ?pd !! _ = Some (StartTask ?r) |- _ => destruct (Hn _ H)
  end.

Ltac inv_close :=
  map_hyps; saturate; map_hyps;
  try (exfalso; lia); try lia; try congruence; try done.

Ltac inv_goal :=
  repeat match goal with
  | |- _ ∧ _ => split
  | |- ∀ _, _ => intros
  | |- _ → _ => intros
  | |- _ ≠ _ => intros ?
  | |- context [<[_:=_]> _ !! _] => rewrite lookup_insert; case_decide
  | |- context [delete _ _ !! _] => rewrite lookup_delete; case_decide
  end.

Ltac inv_none :=
  match goal with
  | |- ?m !! ?k = None =>
      let E := fresh "E" in
      destruct (m !! k) eqn:E; [exfalso; inv_close | reflexivity]
  end.

Ltac inv_solve :=
  constructor; js_simpl;
  [ reflexivity | .. ];
  intros; inv_close; inv_goal; inv_close; try inv_none.

(** ** Elementary facts *)

Lemma failed_inv {A : Type} (resp : Response A) :
  failed resp = true → resp = NetworkError ∨ ∃ body, resp = Http false body.
Proof.
  destruct resp as [|[] body]; cbn; intros H; try discriminate; eauto.
Qed.

(** ** The modal (C10) *)

(** C10: [openModal image] sets [selectedImage] to the image,
    [closeModal] sets it to absent, and neither changes [isCapturing],
    [countdown], [status], [currentFrame], [error] or the images. *)
Theorem C10_modal_frame (w : World) (image : CapturedImage.t) :
  let wo := exec (openModal image) w in
  let wc := exec closeModal w in
  (selectedImage (ui wo) = Some image ∧
   isCapturing (ui wo) = isCapturing (ui w) ∧
   countdown (ui wo) = countdown (ui w) ∧
   status (ui wo) = status (ui w) ∧
   currentFrame (ui wo) = currentFrame (ui w) ∧
   error (ui wo) = error (ui w) ∧
   capturedImages (ui wo) = capturedImages (ui w)) ∧
  (selectedImage (ui wc) = None ∧
   isCapturing (ui wc) = isCapturing (ui w) ∧
   countdown (ui wc) = countdown (ui w) ∧
   status (ui wc) = status (ui w) ∧
   currentFrame (ui wc) = currentFrame (ui w) ∧
   error (ui wc) = error (ui w) ∧
   capturedImages (ui wc) = capturedImages (ui w)).
Proof.
  cbv zeta. js_unfold. split.
  - case_bool_decide; js_simpl; auto 10.
  - case_bool_decide; js_simpl; auto 10.
Qed.

(** ** Applying a snapshot (C4) *)

(** C4: a successful poll tick replaces [countdown], [status] and
    [currentFrame] by the snapshot's values, so an absent countdown or
    frame in the snapshot leaves the cell absent. *)
Theorem C4_snapshot_replaces (w : World) (scope : nat)
    (data : CaptureStatus.t) :
  let w' := exec (intervalCallback_resume scope (Http true (Some data))) w in
  countdown (ui w') = CaptureStatus.countdown data ∧
  status (ui w') = CaptureStatus.status data ∧
  currentFrame (ui w') = CaptureStatus.frame data.
Proof.
  cbv zeta. js_unfold. js_simpl.
  repeat case_bool_decide; js_simpl;
    destruct (String.eqb _ _); js_simpl;
    repeat case_bool_decide; js_simpl; auto.
Qed.

(** ** Failure paths of the session controller and the gallery *)

(** C6: a start request that fails sets the failure status and an error
    message, resets [isCapturing], and neither starts a polling loop nor
    issues a request; the call as a whole has issued the start request
    only. *)
Theorem C6_start_failure (w w1 : World) (scope : nat) (resp : Response unit) :
  failed resp = true →
  let wb := exec (startCapture_begin scope) w in
  let w' := exec (startCapture_resume scope resp) w1 in
  (requests wb = requests w ++ [PostStart] ∧ timers wb = timers w) ∧
  statusRequests w' = statusRequests w1 ∧
  completion (startCapture_resume scope resp) w1 = Normal tt ∧
  status (ui w') = "Failed to start capture" ∧
  error (ui w') = Some "Unable to start capture. Please make sure the backend server is running." ∧
  isCapturing (ui w') = false ∧
  requests w' = requests w1 ∧
  timers w' = timers w1 ∧
  nextTimer w' = nextTimer w1 ∧
  pollInterval w' = pollInterval w1 ∧
  pending w' = pending w1.
Proof.
  intros Hf. cbv zeta. split.
  - js_run; auto.
  - unfold statusRequests.
    destruct (failed_inv resp Hf) as [-> | [body ->]]; js_run; auto 12.
Qed.

Lemma C6_start_failure_witness :
  failed (Http false (None : option unit)) = true ∧
  isCapturing (ui (exec (startCapture_resume 0 (Http false None))
                     (exec (startCapture_begin 0) mounted))) = false.
Proof.
  split; [reflexivity |].
  apply (C6_start_failure mounted (exec (startCapture_begin 0) mounted) 0
           (Http false None)).
  reflexivity.
Defined.

(** C7: a failed gallery fetch sets the error about the photo booth
    server and leaves the images as they were; a successful one replaces
    them by the fetched collection. *)
Theorem C7_gallery_sync (w : World)
    (resp : Response (list CapturedImage.t)) (data : list CapturedImage.t) :
  failed resp = true →
  let wf := exec (fetchImages_resume resp) w in
  let ws := exec (fetchImages_resume (Http true (Some data))) w in
  capturedImages (ui (exec fetchImages_begin w)) = capturedImages (ui w) ∧
  error (ui wf) = Some "Unable to connect to the photo booth server. Please make sure the backend server is running." ∧
  capturedImages (ui wf) = capturedImages (ui w) ∧
  capturedImages (ui ws) = data.
Proof.
  intros Hf. cbv zeta. repeat split.
  - js_run; auto.
  - destruct (failed_inv resp Hf) as [-> | [body ->]]; js_run; auto.
  - destruct (failed_inv resp Hf) as [-> | [body ->]]; js_run; auto.
Qed.

Lemma C7_gallery_sync_witness :
  failed (NetworkError : Response (list CapturedImage.t)) = true ∧
  capturedImages
    (ui (exec (fetchImages_resume NetworkError)
           (exec (fetchImages_resume (Http true (Some [photo1]))) mounted)))
  = [photo1] ∧
  capturedImages
    (ui (exec (fetchImages_resume (Http true (Some [photo2])))
           (exec (fetchImages_resume (Http true (Some [photo1]))) mounted)))
  = [photo2].
Proof.
  split; [reflexivity |].
  pose proof (C7_gallery_sync
                (exec (fetchImages_resume (Http true (Some [photo1]))) mounted)
                NetworkError [photo2] eq_refl) as H.
  cbv zeta in H. destruct H as (_ & _ & H1 & H2).
  split; [rewrite H1; reflexivity | exact H2].
Defined.

(** C9: with no session active, [stopCapture] completes normally, both
    up to its request and after it, whatever the response, and
    [isCapturing] is false afterwards. *)
Theorem C9_stop_when_idle (w w1 : World) (scope : nat)
    (resp : Response unit) :
  isCapturing (ui w) = false →
  completion (stopCapture_begin scope) w = Normal tt ∧
  isCapturing (ui (exec (stopCapture_begin scope) w)) = false ∧
  completion (stopCapture_resume scope resp) w1 = Normal tt ∧
  isCapturing (ui (exec (stopCapture_resume scope resp) w1)) = false.
Proof.
  intros Hidle. repeat split.
  - js_run; auto.
  - js_unfold. js_simpl. repeat case_bool_decide; js_simpl; auto.
  - destruct resp as [|[] body]; js_unfold; js_simpl;
      repeat case_bool_decide; js_simpl;
      try destruct (pollInterval _ !! _); auto.
  - destruct resp as [|[] body]; js_unfold; js_simpl;
      repeat (case_bool_decide; js_simpl);
      try destruct (pollInterval _ !! _); js_simpl; auto.
Qed.

Lemma C9_stop_when_idle_witness :
  isCapturing (ui mounted) = false ∧
  isCapturing
    (ui (exec (stopCapture_resume 0 NetworkError)
           (exec (stopCapture_begin 0) mounted))) = false.
Proof.
  split; [reflexivity |].
  apply (C9_stop_when_idle mounted (exec (stopCapture_begin 0) mounted) 0
           NetworkError).
  reflexivity.
Defined.

(** ** The captured tick and the gallery (C5) *)

Lemma galleryRequests_app (w : World) (l : list Request) :
  length (filter (λ r, r = GetImages) (requests w ++ l))
  = galleryRequests w + length (filter (λ r, r = GetImages) l).
Proof. unfold galleryRequests. by rewrite filter_app, length_app. Qed.

Lemma gallery_count_images :
  length (filter (λ r, r = GetImages) [GetImages]) = 1.
Proof. reflexivity. Qed.

Lemma gallery_count_status :
  length (filter (λ r, r = GetImages) [GetStatus]) = 0.
Proof. reflexivity. Qed.

Lemma tick_begins (scope : nat) (w : World) :
  let w1 := handle (intervalCallback_begin scope) w in
  pending w1 !! nextTask w = Some (PollTask scope) ∧
  timers w1 = timers w ∧
  isCapturing (ui w1) = isCapturing (ui w) ∧
  galleryRequests w1 = galleryRequests w.
Proof.
  cbv zeta. unfold galleryRequests at 1.
  js_run; repeat split; try apply lookup_insert_eq;
    rewrite galleryRequests_app, gallery_count_status; lia.
Qed.

Lemma tick_succeeds (scope k : nat) (data : CaptureStatus.t) (w : World) :
  let w2 := handle (intervalCallback_resume scope (Http true (Some data)))
              (settle k w) in
  timers w2 = timers w ∧
  isCapturing (ui w2) = isCapturing (ui w) ∧
  galleryRequests w2 = galleryRequests w + capturedTick data.
Proof.
  cbv zeta. unfold capturedTick, galleryRequests at 1.
  js_unfold. js_simpl.
  destruct (String.eqb_spec (CaptureStatus.status data) "captured") as [He|He].
  - rewrite (bool_decide_eq_true_2 _ He).
    js_cases; js_simpl; repeat split;
      rewrite galleryRequests_app, gallery_count_images; lia.
  - rewrite (bool_decide_eq_false_2 _ He).
    js_cases; js_simpl; repeat split; unfold galleryRequests; lia.
Qed.

(** One tick of a running interval and its successful answer. *)
Lemma pollTick_ok (t scope : nat) (data : CaptureStatus.t) (w : World) :
  timers w !! t = Some scope →
  ∃ w', run [Tick t; StatusResponse (nextTask w) (Http true (Some data))] w
        = Some w' ∧
        timers w' = timers w ∧
        isCapturing (ui w') = isCapturing (ui w) ∧
        galleryRequests w' = galleryRequests w + capturedTick data.
Proof.
  intros Ht. cbn [run step]. rewrite Ht.
  destruct (tick_begins scope w) as (Hk & Ht1 & Hc1 & Hg1).
  rewrite Hk. eexists. split; [reflexivity |].
  destruct (tick_succeeds scope (nextTask w) data
              (handle (intervalCallback_begin scope) w)) as (Ht2 & Hc2 & Hg2).
  rewrite Ht2, Hc2, Hg2, Ht1, Hc1, Hg1. auto.
Qed.

Lemma capturedTicks_cons (data : CaptureStatus.t)
    (l : list CaptureStatus.t) :
  capturedTicks (data :: l) = capturedTick data + capturedTicks l.
Proof.
  unfold capturedTicks, capturedTick. rewrite filter_cons.
  case_bool_decide; case_decide; try contradiction; reflexivity.
Qed.

Lemma pollTicks_ok (t scope : nat) (l : list CaptureStatus.t) (w : World) :
  timers w !! t = Some scope →
  ∃ w', pollTicks t l w = Some w' ∧
        timers w' = timers w ∧
        isCapturing (ui w') = isCapturing (ui w) ∧
        galleryRequests w' = galleryRequests w + capturedTicks l.
Proof.
  revert w. induction l as [|data l IH]; intros w Ht.
  - exists w. unfold capturedTicks. cbn. repeat split; lia.
  - destruct (pollTick_ok t scope data w Ht) as (w1 & Hr & Ht1 & Hc1 & Hg1).
    destruct (IH w1) as (w' & Hp & Ht' & Hc' & Hg'); [by rewrite Ht1 |].
    exists w'. cbn [pollTicks]. rewrite Hr.
    split; [exact Hp |].
    rewrite Ht', Hc', Hg', Ht1, Hc1, Hg1, capturedTicks_cons.
    repeat split; lia.
Qed.

(** Two ticks in a row that report ["captured"] are one transition and
    two gallery requests. *)
Lemma C5_counterexample :
  ∃ w w',
    run startedTrace mounted = Some w ∧
    pollTicks 0 [snapshot "captured" None; snapshot "captured" None] w
    = Some w' ∧
    galleryRequests w' = galleryRequests w + 2 ∧
    transitionsIntoCaptured false ["captured"; "captured"] = 1 ∧
    isCapturing (ui w') = true ∧
    ¬ syncsOncePerTransition 0
        [snapshot "captured" None; snapshot "captured" None] w.
Proof.
  eexists. eexists.
  split; [vm_compute; reflexivity |].
  split; [vm_compute; reflexivity |].
  split; [vm_compute; reflexivity |].
  split; [reflexivity |].
  split; [vm_compute; reflexivity |].
  intros H.
  match type of H with
  | syncsOncePerTransition _ ?l ?w =>
      destruct (pollTicks_ok 0 0 l w) as (w' & Hp & _ & _ & Hg);
        [vm_compute; reflexivity |]
  end.
  specialize (H w' Hp). rewrite Hg in H.
  apply Nat.add_cancel_l in H. vm_compute in H. discriminate H.
Qed.

(** C5 (amended): a successful tick whose status is ["captured"] calls
    [fetchImages] exactly once; a run of successful ticks of a running
    interval therefore issues one gallery request per captured tick, and
    it leaves the interval in the table and [isCapturing] as it was. *)
Theorem C5_captured_tick_syncs (w : World) (t scope : nat)
    (data : CaptureStatus.t) (l : list CaptureStatus.t) :
  timers w !! t = Some scope →
  CaptureStatus.status data = "captured" →
  (let w1 := exec (intervalCallback_resume scope (Http true (Some data))) w in
   requests w1 = requests w ++ [GetImages] ∧
   timers w1 = timers w ∧
   isCapturing (ui w1) = isCapturing (ui w)) ∧
  ∃ w', pollTicks t l w = Some w' ∧
        timers w' !! t = Some scope ∧
        isCapturing (ui w') = isCapturing (ui w) ∧
        galleryRequests w' = galleryRequests w + capturedTicks l.
Proof.
  intros Ht Hc. split.
  - cbv zeta. js_unfold. js_simpl. rewrite Hc.
    cbn [String.eqb Ascii.eqb Bool.eqb].
    js_cases; js_simpl; auto.
  - destruct (pollTicks_ok t scope l w Ht) as (w' & Hp & Ht' & Hc' & Hg').
    exists w'. rewrite Ht'. auto.
Qed.

Lemma C5_captured_tick_syncs_witness :
  CaptureStatus.status (snapshot "captured" None) = "captured" ∧
  ∃ w, run startedTrace mounted = Some w ∧
       timers w !! 0 = Some 0 ∧
       isCapturing (ui w) = true ∧
       ∃ w', pollTicks 0 [snapshot "counting" (Some 1%Z);
                          snapshot "captured" None] w = Some w' ∧
             timers w' !! 0 = Some 0 ∧
             isCapturing (ui w') = isCapturing (ui w) ∧
             galleryRequests w' = galleryRequests w + 1.
Proof.
  split; [reflexivity |].
  eexists. split; [vm_compute; reflexivity |].
  split; [vm_compute; reflexivity |].
  split; [vm_compute; reflexivity |].
  apply (C5_captured_tick_syncs _ 0 0 (snapshot "captured" None)
           [snapshot "counting" (Some 1%Z); snapshot "captured" None]);
    vm_compute; reflexivity.
Defined.

(** ** The error cell (C8) *)

(** The gallery fetch of the mount fails while the session is running;
    the tick that follows succeeds with status ["idle"], and the error is
    still displayed. *)
Lemma C8_counterexample :
  ∃ w0 w,
    run (startedTrace ++ [ImagesResponse 0 NetworkError]) mounted = Some w0 ∧
    error (ui w0) = Some msgImages ∧
    run [Tick 0; StatusResponse 2 (Http true (Some (snapshot "idle" None)))]
      w0 = Some w ∧
    status (ui w) = "idle" ∧
    error (ui w) ≠ None.
Proof.
  eexists. eexists.
  split; [vm_compute; reflexivity |].
  split; [reflexivity |].
  split; [vm_compute; reflexivity |].
  split; [reflexivity | discriminate].
Qed.

(** C8 (amended): [startCapture], [stopCapture] and [fetchImages] clear
    the error when they are called, and their success paths leave the cell
    alone; a successful poll tick leaves the cell alone unless its status
    is ["captured"], where the [fetchImages] it calls clears it; every
    failure path overwrites the cell with its own message. *)
Theorem C8_error_cell (w : World) (scope : nat)
    (body : option unit) (images : list CapturedImage.t)
    (data : CaptureStatus.t)
    (r1 r2 : Response unit) (r3 : Response CaptureStatus.t)
    (r4 : Response (list CapturedImage.t)) :
  failed r1 = true → failed r2 = true → failed r3 = true → failed r4 = true →
  (error (ui (exec (startCapture_begin scope) w)) = None ∧
   error (ui (exec (stopCapture_begin scope) w)) = None ∧
   error (ui (exec fetchImages_begin w)) = None) ∧
  (error (ui (exec (startCapture_resume scope (Http true body)) w))
   = error (ui w) ∧
   error (ui (exec (stopCapture_resume scope (Http true body)) w))
   = error (ui w) ∧
   error (ui (exec (fetchImages_resume (Http true (Some images))) w))
   = error (ui w)) ∧
  error (ui (exec (intervalCallback_resume scope (Http true (Some data))) w))
  = (if String.eqb (CaptureStatus.status data) "captured"
     then None else error (ui w)) ∧
  (error (ui (exec (startCapture_resume scope r1) w)) = Some msgStart ∧
   error (ui (exec (stopCapture_resume scope r2) w)) = Some msgStop ∧
   error (ui (exec (intervalCallback_resume scope r3) w)) = Some msgPoll ∧
   error (ui (exec (fetchImages_resume r4) w)) = Some msgImages).
Proof.
  intros H1 H2 H3 H4. unfold msgStart, msgStop, msgPoll, msgImages.
  split; [|split; [|split]].
  - repeat split; js_run; auto.
  - repeat split; js_run; auto.
  - js_unfold. js_simpl.
    destruct (String.eqb (CaptureStatus.status data) "captured");
      js_cases; js_simpl; auto.
  - destruct (failed_inv r1 H1) as [-> | [b1 ->]];
    destruct (failed_inv r2 H2) as [-> | [b2 ->]];
    destruct (failed_inv r3 H3) as [-> | [b3 ->]];
    destruct (failed_inv r4 H4) as [-> | [b4 ->]];
    (repeat split; js_run; auto).
Qed.

Lemma C8_error_cell_witness :
  failed err500 = true ∧
  failed (NetworkError : Response CaptureStatus.t) = true ∧
  failed (NetworkError : Response (list CapturedImage.t)) = true ∧
  error (ui (exec (stopCapture_resume 0 err500)
               (exec (fetchImages_resume NetworkError) mounted)))
  = Some msgStop.
Proof.
  split; [reflexivity |]. split; [reflexivity |]. split; [reflexivity |].
  apply (C8_error_cell (exec (fetchImages_resume NetworkError) mounted) 0
           None [] (snapshot "idle" None) err500 err500
           NetworkError NetworkError); reflexivity.
Defined.

(** ** The invariant holds in every reachable state *)

Lemma mounted_Inv : Inv mounted.
Proof.
  unfold mounted, blank, initialState. js_run; try done.
  constructor; js_simpl; try reflexivity; intros; map_hyps;
    try (rewrite lookup_empty in *; discriminate); try lia.
Qed.

Lemma step_Inv (e : Event) (w w' : World) :
  Inv w → step e w = Some w' → Inv w'.
Proof.
  intros HI Hs. inv_start w HI.
  destruct e; cbn [step ui isCapturing capturedImages selectedImage timers pending] in Hs.
  - destruct (isCapturing u) eqn:Hc; [discriminate|]. injection Hs as <-.
    js_run; try congruence. all: inv_solve.
  - destruct (isCapturing u) eqn:Hc; [|discriminate]. injection Hs as <-.
    js_run; try congruence. all: inv_solve.
  - destruct (capturedImages u !! i) eqn:Hi; [|discriminate]. injection Hs as <-.
    js_run; try congruence. all: inv_solve.
  - destruct (selectedImage u) eqn:Hi; [|discriminate]. injection Hs as <-.
    js_run; try congruence. all: inv_solve.
  - destruct (tm !! t) eqn:Hi; [|discriminate]. injection Hs as <-.
    js_run; try congruence. all: inv_solve.
  - destruct (pd !! k) as [[]|] eqn:Hi; try discriminate. injection Hs as <-.
    destruct resp as [|[] body]; js_run; try congruence. all: inv_solve.
  - destruct (pd !! k) as [[]|] eqn:Hi; try discriminate. injection Hs as <-.
    destruct resp as [|[] body]; js_run; try congruence. all: inv_solve.
  - destruct (pd !! k) as [[]|] eqn:Hi; try discriminate. injection Hs as <-.
    destruct resp as [|[] [data|]]; js_run; try congruence. all: inv_solve.
  - destruct (pd !! k) as [[]|] eqn:Hi; try discriminate. injection Hs as <-.
    destruct resp as [|[] [data|]]; js_run; try congruence. all: inv_solve.
Qed.

Lemma run_Inv (es : list Event) (w w' : World) :
  Inv w → run es w = Some w' → Inv w'.
Proof.
  revert w. induction es as [|e es IH]; intros w HI Hr; cbn [run] in Hr.
  - by injection Hr as <-.
  - destruct (step e w) as [w1|] eqn:Hs; [|discriminate].
    eapply IH; [|exact Hr]. by eapply step_Inv.
Qed.

Lemma reachable_Inv (w : World) : reachable w → Inv w.
Proof. intros [es Hr]. eapply run_Inv; [apply mounted_Inv | exact Hr]. Qed.

(** A handle that has left the interval table never comes back: new
    handles are fresh. *)
Lemma step_retired (t : nat) (e : Event) (w w' : World) :
  retired t w → step e w = Some w' → retired t w'.
Proof.
  intros [Hlt Hnone] Hs.
  destruct w as [u d rn pi tm nt pd nk rq cs]. unfold retired.
  cbn [ui dirty render pollInterval timers nextTimer pending nextTask
       requests console] in *.
  destruct e;
    cbn [step ui isCapturing capturedImages selectedImage timers pending]
      in Hs;
    repeat match type of Hs with
           | context [match ?x with _ => _ end] => destruct x eqn:?
           end;
    try discriminate; injection Hs as <-;
    try match goal with
        | resp : Response _ |- _ => destruct resp as [|[] [?|]]
        end;
    js_run; try congruence;
    (split; [lia |]);
    rewrite ?lookup_insert, ?lookup_delete; repeat case_decide;
    try lia; try done.
Qed.

Lemma run_retired (t : nat) (es : list Event) (w w' : World) :
  retired t w → run es w = Some w' → retired t w'.
Proof.
  revert w. induction es as [|e es IH]; intros w HI Hr; cbn [run] in Hr.
  - by injection Hr as <-.
  - destruct (step e w) as [w1|] eqn:Hs; [|discriminate].
    eapply IH; [|exact Hr]. by eapply step_retired.
Qed.

Lemma retired_no_tick (t : nat) (w : World) :
  retired t w → step (Tick t) w = None.
Proof. intros [_ Hn]. cbn [step]. by rewrite Hn. Qed.

(** ** Poll failure stops the loop (C1) *)

(** C1: in every reachable state, when the status request of a tick of a
    running loop fails, the callback sets the lost-connection error,
    sets [isCapturing] to false and removes the loop's interval from the
    table; whatever happens afterwards, that interval never fires
    again. *)
Theorem C1_poll_failure_fail_stop (w : World) (t scope k : nat)
    (resp : Response CaptureStatus.t) :
  reachable w →
  timers w !! t = Some scope →
  pending w !! k = Some (PollTask scope) →
  failed resp = true →
  ∃ w', step (StatusResponse k resp) w = Some w' ∧
        error (ui w') = Some msgPoll ∧
        isCapturing (ui w') = false ∧
        timers w' !! t = None ∧
        ∀ es w'', run es w' = Some w'' → step (Tick t) w'' = None.
Proof.
  intros Hreach Ht Hk Hf. apply reachable_Inv in Hreach.
  pose proof (inv_timer_handle w Hreach t scope Ht) as Hh.
  pose proof (inv_handle_bound w Hreach scope t Hh) as [_ Hlt].
  cbn [step]. rewrite Hk. eexists. split; [reflexivity |].
  assert (retired t (handle (intervalCallback_resume scope resp) (settle k w))
          ∧ error (ui (handle (intervalCallback_resume scope resp) (settle k w)))
            = Some msgPoll
          ∧ isCapturing
              (ui (handle (intervalCallback_resume scope resp) (settle k w)))
            = false) as (Hret & He & Hc).
  { unfold retired, msgPoll.
    destruct w as [u d rn pi tm nt pd nk rq cs].
    cbn [ui dirty render pollInterval timers nextTimer pending nextTask
         requests console] in *.
    destruct (failed_inv resp Hf) as [-> | [body ->]];
      js_run; simplify_eq; rewrite ?lookup_delete_eq; auto. }
  split; [exact He |]. split; [exact Hc |]. split; [apply Hret |].
  intros es w'' Hr. apply retired_no_tick. by eapply run_retired.
Qed.

Lemma C1_poll_failure_fail_stop_witness :
  ∃ w, run (startedTrace ++ [Tick 0]) mounted = Some w ∧
       timers w !! 0 = Some 0 ∧
       pending w !! 2 = Some (PollTask 0) ∧
       failed (Http false None : Response CaptureStatus.t) = true ∧
       ∃ w', step (StatusResponse 2 (Http false None)) w = Some w' ∧
             error (ui w') = Some msgPoll ∧
             isCapturing (ui w') = false ∧
             timers w' !! 0 = None ∧
             ∀ es w'', run es w' = Some w'' → step (Tick 0) w'' = None.
Proof.
  eexists. split; [vm_compute; reflexivity |].
  split; [reflexivity |]. split; [reflexivity |]. split; [reflexivity |].
  apply (C1_poll_failure_fail_stop _ 0 0 2 (Http false None)).
  - exists (startedTrace ++ [Tick 0]). vm_compute. reflexivity.
  - reflexivity.
  - reflexivity.
  - reflexivity.
Defined.

(** ** What [stopCapture] does to the loop (C2, C3) *)

(** In a reachable state the variable that [stopCapture] reads is the one
    of the render in which the stop button was clicked, and it is
    unassigned: the interval table is the same before and after. *)
Lemma stop_never_clears (w w' : World) (k scope : nat) (resp : Response unit) :
  reachable w →
  pending w !! k = Some (StopTask scope) →
  step (StopResponse k resp) w = Some w' →
  timers w' = timers w.
Proof.
  intros Hreach Hk Hs. apply reachable_Inv in Hreach.
  destruct (inv_stop_scope w Hreach k scope Hk) as (_ & _ & Hnone & _).
  cbn [step] in Hs. rewrite Hk in Hs. injection Hs as <-.
  destruct w as [u d rn pi tm nt pd nk rq cs].
  cbn [ui dirty render pollInterval timers nextTimer pending nextTask
       requests console] in *.
  destruct resp as [|[] body]; js_run; simplify_eq; auto.
Qed.

(** C2: start succeeds, stop succeeds; [isCapturing] and [status] are as
    the claim says, but interval 0 is still in the table, its handle sits
    in the variable of render 0 while the stop ran in render 1, and the
    next tick fires. *)
Theorem C2_stop_leaves_loop_running :
  ∃ w0 w,
    run startedTrace mounted = Some w0 ∧
    activeLoops w0 = 1 ∧
    render w0 = 1 ∧
    run [ClickStop; StopResponse 2 ok200] w0 = Some w ∧
    isCapturing (ui w) = false ∧
    status (ui w) = "Capture session stopped" ∧
    pollInterval w !! 0 = Some 0 ∧
    pollInterval w !! 1 = None ∧
    timers w !! 0 = Some 0 ∧
    is_Some (step (Tick 0) w).
Proof.
  eexists. eexists.
  split; [vm_compute; reflexivity |].
  split; [reflexivity |]. split; [reflexivity |].
  split; [vm_compute; reflexivity |].
  repeat (split; [reflexivity |]).
  eexists. vm_compute. reflexivity.
Qed.

(** C3: start, stop (refused by the server, or accepted), start again:
    two intervals are in the table and both fire. *)
Theorem C3_two_loops_after_restart :
  (∃ w, run (startedTrace ++ [ClickStop; StopResponse 2 err500;
                              ClickStart; StartResponse 3 ok200]) mounted
        = Some w ∧
        activeLoops w = 2 ∧
        is_Some (step (Tick 0) w) ∧ is_Some (step (Tick 1) w)) ∧
  (∃ w, run (startedTrace ++ [ClickStop; StopResponse 2 ok200;
                              ClickStart; StartResponse 3 ok200]) mounted
        = Some w ∧
        activeLoops w = 2 ∧
        is_Some (step (Tick 0) w) ∧ is_Some (step (Tick 1) w)).
Proof.
  split; eexists;
    (split; [vm_compute; reflexivity |]);
    (split; [reflexivity |]);
    split; eexists; vm_compute; reflexivity.
Qed.
